(** * browser-tools: extraction of Chromium browser data (src/index.js)

    A shallow embedding of the six exported extraction functions and of the
    private path resolver [getBrowserFilePath], with the properties their
    specification states about them.

    - JavaScript values that occur in SQLite rows and as arguments are the
      inductive [value]; a row and a projected record are JavaScript objects,
      modelled as finite maps from property names to values.
    - The two libraries the file requires, [path] and [sqlite3], are not part
      of the repository: [path.join] and the SQLite engine are parameters
      (records [host] and [engine]); only their calling protocol is fixed.
    - The callbacks of the source stay callbacks: the open callback returns
      the statements it issues on the connection, and the connection runs
      them in the order sqlite3 serialises them. *)

From Stdlib Require Import ZArith Ascii String List.
From stdpp Require Import gmap strings list fin_maps.

Local Open Scope string_scope.
Local Open Scope Z_scope.

(** ** JavaScript values *)

(** The values a SQLite column or an argument of the exported functions can
    hold: [undefined], [null], booleans, (integer) numbers, strings and
    Buffers (BLOB columns). *)
Inductive value : Type :=
| VUndef
| VNull
| VBool (b : bool)
| VNum (n : Z)
| VStr (s : string)
| VBuffer (bytes : list Z).

(** [Boolean(v)] and the truthiness test of [if (v)] and [!v]: [undefined],
    [null], [false], [0] and the empty string are falsy; every other value,
    and every object (a Buffer, also an empty one), is truthy. *)
Definition to_boolean (v : value) : bool :=
  match v with
  | VUndef => false
  | VNull => false
  | VBool b => b
  | VNum n => negb (n =? 0)
  | VStr s => negb (String.eqb s EmptyString)
  | VBuffer _ => true
  end.

(** [a === 'literal']: strict equality with a string literal. *)
Definition strict_eq_str (a : value) (lit : string) : bool :=
  match a with
  | VStr s => String.eqb s lit
  | _ => false
  end.

(** A JavaScript object with primitive property values: a row as sqlite3
    delivers it, or a record built by an object literal. *)
Abbreviation obj := (gmap string value).

(** [o.k]: reading a property; a missing property reads as [undefined]. *)
Definition get_prop (o : obj) (k : string) : value :=
  default VUndef (o !! k).

(** ** The limited-view projections *)

(** lines 39-43 and 83-87: the object literal pushed for a login row. *)
Definition project_login (row : obj) : obj :=
  {[ "originUrl" := get_prop row "origin_url";
     "username" := get_prop row "username_value";
     "password" := get_prop row "password_value" ]}.

(** lines 129-141 and 181-193: the object literal pushed for a cookie row. *)
Definition project_cookie (row : obj) : obj :=
  {[ "hostKey" := get_prop row "host_key";
     "name" := get_prop row "name";
     "value" := get_prop row "encrypted_value";
     "path" := get_prop row "path";
     "expiresUtc" := get_prop row "expires_utc";
     "secure" := VBool (to_boolean (get_prop row "secure"));
     "httpOnly" := VBool (to_boolean (get_prop row "httponly"));
     "lastAccessUtc" := get_prop row "last_access_utc";
     "expired" := VBool (to_boolean (get_prop row "has_expires"));
     "persistent" := VBool (to_boolean (get_prop row "persistent"));
     "priority" := VBool (to_boolean (get_prop row "priority")) ]}.

(** lines 235-241: the object literal pushed for a row of [urls]. *)
Definition project_url (row : obj) : obj :=
  {[ "id" := get_prop row "id";
     "url" := get_prop row "url";
     "title" := get_prop row "title";
     "visits" := get_prop row "visit_count";
     "lastVisit" := get_prop row "last_visit_time" ]}.

(** lines 284-294: the object literal pushed for a row of [downloads]. *)
Definition project_download (row : obj) : obj :=
  {[ "id" := get_prop row "id";
     "guid" := get_prop row "guid";
     "currentPath" := get_prop row "current_path";
     "targetPath" := get_prop row "target_path";
     "totalBytes" := get_prop row "total_bytes";
     "referrer" := get_prop row "referrer";
     "siteUrl" := get_prop row "site_url";
     "tabUrl" := get_prop row "tab_url";
     "mimeType" := get_prop row "mime_type" ]}.

(** ** Completions and runs *)

(** An Error object, by its name and message. *)
Record js_error : Type := JsError { err_name : string; err_message : string }.

(** How a call ends: it returns a value or throws. *)
Inductive completion (A : Type) : Type :=
| Return (a : A)
| Throw (e : js_error).
Arguments Return {A} a.
Arguments Throw {A} e.

(** [sqlite3.OPEN_READONLY] and the other two flags of the binding. *)
Inductive open_mode : Type := OPEN_READONLY | OPEN_READWRITE | OPEN_CREATE.

(** A line on the console: [console.error(e)] or [console.log(array)]. The
    array is printed when the call is made, so a line holds the array's
    contents at that moment. *)
Inductive console : Type :=
| Error (e : js_error)
| Log (a : list obj).

(** What an extraction function makes happen, in the order it happens. *)
Inductive event : Type :=
| EvNew (filename : value) (mode : open_mode)
    (* new sqlite3.Database(filename, mode, callback) is evaluated *)
| EvOpened          (* the engine has opened the file: a handle is held *)
| EvQuery (sql : string)  (* the engine runs the statement *)
| EvClosed          (* db.close() took effect: the handle is released *)
| EvConsole (line : console).

(** A call with its effects: the completion the caller sees and the events
    of the call, those of its callbacks included. *)
Record run (A : Type) : Type := Run { result : completion A; events : list event }.
Arguments Run {A} result events.
Arguments result {A} r.
Arguments events {A} r.

#[export] Instance run_ret : MRet run := fun A a => Run (Return a) [].

#[export] Instance run_bind : MBind run := fun A B k m =>
  match result m with
  | Return a => Run (result (k a)) (events m ++ events (k a))
  | Throw e => Run (Throw e) (events m)
  end.

(** A call without effects of its own. *)
Definition pure_call {A : Type} (c : completion A) : run A := Run c [].

(** ** The host: environment and [path.join] *)

(** [process.env.LOCALAPPDATA] (a string, or [undefined] when the variable
    is not set) and the joining and normalising that [path.join] does on
    strings, which is the platform's. *)
Record host : Type := Host {
  LOCALAPPDATA : value;
  join_strings : list string -> string
}.

Definition as_string (v : value) : option string :=
  match v with VStr s => Some s | _ => None end.

Definition ERR_INVALID_ARG_TYPE : js_error :=
  JsError "TypeError" "The path argument must be of type string".

(** [path.join(...args)]: every argument must be a string, otherwise a
    TypeError is thrown; the strings are joined by the platform. *)
Definition path_join (h : host) (args : list value) : completion value :=
  match mapM as_string args with
  | Some segments => Return (VStr (join_strings h segments))
  | None => Throw ERR_INVALID_ARG_TYPE
  end.

(** lines 312-326. The last [return] has no operand: it returns
    [undefined]. *)
Definition getBrowserFilePath (h : host) (browser fileName : value) : completion value :=
  if strict_eq_str browser "chrome" then
    path_join h [LOCALAPPDATA h; VStr "\Google\Chrome\User Data\Default\"; fileName]
  else if strict_eq_str browser "opera" then
    path_join h [LOCALAPPDATA h; VStr "\Opera Software\Opera Stable\"; fileName]
  else if strict_eq_str browser "yandex" then
    path_join h [LOCALAPPDATA h; VStr "\Yandex\YandexBrowser\User Data\Default\"; fileName]
  else Return VUndef.

(** ** The SQLite engine *)

(** The answer of an opened database to a statement: an error before any
    row is read (a missing table), the rows of the result, or the rows read
    before a step fails (a damaged file) and then the error. *)
Inductive query_outcome : Type :=
| QueryFailed (e : js_error)
| QueryRows (rows : list obj)
| QueryPartial (rows : list obj) (e : js_error).

(** An opened database, by its answer to every SQL text. *)
Definition database : Type := string -> query_outcome.

(** What [new sqlite3.Database(filename, mode, callback)] does: the
    constructor throws, or it returns and the callback is called later, with
    an error when the file could not be opened and with [null] when it
    could. *)
Inductive open_outcome : Type :=
| CtorThrows (e : js_error)
| OpenFailed (e : js_error)
| Opened (d : database).

(** The engine, by what opening a file name in a mode does. *)
Record engine : Type := Engine { sq_open : value -> open_mode -> open_outcome }.

(** A statement of an open callback. The row callbacks of the source only
    write to the console; the callback of [db.each] also pushes onto the
    array declared before the call, which is passed to it and returned. *)
Inductive stmt : Type :=
| console_error (e : js_error)
| db_all (sql : string) (callback : option js_error -> list obj -> list console)
| db_each (sql : string) (array : list obj)
    (callback : list obj -> option js_error -> obj -> list obj * list console)
| db_close.

(** [array.push(x)] *)
Definition push (array : list obj) (x : obj) : list obj := array ++ [x].

(** [db.each]: the callback is called once for every row, in the order the
    engine yields them. *)
Fixpoint each_row (callback : list obj -> option js_error -> obj -> list obj * list console)
    (array : list obj) (rows : list obj) : list console :=
  match rows with
  | [] => []
  | row :: rows =>
      let '(array, lines) := callback array None row in
      lines ++ each_row callback array rows
  end.

(** The error of a statement issued on a connection that is not open. *)
(** The array as the row callbacks of [db.each] leave it. *)
Fixpoint each_row_array (callback : list obj -> option js_error -> obj -> list obj * list console)
    (array : list obj) (rows : list obj) : list obj :=
  match rows with
  | [] => array
  | row :: rows => each_row_array callback (fst (callback array None row)) rows
  end.

Definition SQLITE_MISUSE : js_error :=
  JsError "Error" "SQLITE_MISUSE: Database is closed".

(** The connection runs the statements issued on it one after the other:
    sqlite3 queues [db.close()] until the statements issued before it are
    done. [d] is the database while the handle is held. When a step fails
    after rows were read, [db.all] hands its callback the error alone, and
    [db.each] has called its callback for each of those rows before it calls
    it with the error. *)
Fixpoint exec (d : option database) (statements : list stmt) : list event :=
  match statements with
  | [] => []
  | console_error e :: rest => EvConsole (Error e) :: exec d rest
  | db_all sql callback :: rest =>
      match d with
      | Some db =>
          EvQuery sql ::
          map EvConsole
            match db sql with
            | QueryFailed e => callback (Some e) []
            | QueryRows rows => callback None rows
            | QueryPartial _ e => callback (Some e) []
            end ++ exec d rest
      | None => map EvConsole (callback (Some SQLITE_MISUSE) []) ++ exec d rest
      end
  | db_each sql array callback :: rest =>
      match d with
      | Some db =>
          EvQuery sql ::
          map EvConsole
            match db sql with
            | QueryFailed e => snd (callback array (Some e) ∅)
            | QueryRows rows => each_row callback array rows
            | QueryPartial rows e =>
                each_row callback array rows ++
                snd (callback (each_row_array callback array rows) (Some e) ∅)
            end ++ exec d rest
      | None => map EvConsole (snd (callback array (Some SQLITE_MISUSE) ∅)) ++ exec d rest
      end
  | db_close :: rest =>
      match d with
      | Some _ => EvClosed :: exec None rest
      | None => exec None rest
      end
  end.

(** [new sqlite3.Database(filename, mode, callback)]. *)
Definition new_Database (E : engine) (filename : value) (mode : open_mode)
    (callback : option js_error -> list stmt) : run unit :=
  match sq_open E filename mode with
  | CtorThrows e => Run (Throw e) [EvNew filename mode]
  | OpenFailed e => Run (Return tt) (EvNew filename mode :: exec None (callback (Some e)))
  | Opened d => Run (Return tt) (EvNew filename mode :: EvOpened :: exec (Some d) (callback None))
  end.

(** Whether a handle is held after the events [t], when [held] tells
    whether one was before. *)
Fixpoint handle_held (held : bool) (t : list event) : bool :=
  match t with
  | [] => held
  | EvOpened :: t => handle_held true t
  | EvClosed :: t => handle_held false t
  | _ :: t => handle_held held t
  end.

(** The arrays written by [console.log], in order, and the last of them:
    the records an operation has produced when it is done ([[]] when it
    logged none). *)
Definition logged (t : list event) : list (list obj) :=
  omap (fun ev => match ev with EvConsole (Log a) => Some a | _ => None end) t.

Definition last_logged (t : list event) : list obj :=
  default [] (last (logged t)).

(** ** The exported functions *)

(** lines 16-54 *)
Definition getLoginData (h : host) (E : engine)
    (browser limited loginDataFilePath : value) : run value :=
  loginDataFilePath ←
    (if negb (to_boolean loginDataFilePath)
     then pure_call (getBrowserFilePath h browser (VStr "Login Data"))
     else mret loginDataFilePath);
  new_Database E loginDataFilePath OPEN_READONLY (fun error =>
    match error with
    | Some error => [console_error error]
    | None =>
        [ db_all "SELECT * FROM logins" (fun error rows =>
            match error with
            | Some error => [Error error]
            | None =>
                let loginData :=
                  fold_left (fun loginData row =>
                    if to_boolean limited
                    then push loginData (project_login row)
                    else push loginData row) rows [] in
                [Log loginData]
            end);
          db_close ]
    end) ;;
  mret VUndef.

(** lines 63-97 *)
Definition getLoginDataEach (h : host) (E : engine)
    (browser limited loginDataFilePath : value) : run value :=
  loginDataFilePath ←
    (if negb (to_boolean loginDataFilePath)
     then pure_call (getBrowserFilePath h browser (VStr "Login Data"))
     else mret loginDataFilePath);
  new_Database E loginDataFilePath OPEN_READONLY (fun error =>
    match error with
    | Some error => [console_error error]
    | None =>
        let loginData := [] in
        [ db_each "SELECT * FROM logins" loginData (fun loginData error row =>
            match error with
            | Some error => (loginData, [Error error])
            | None =>
                let loginData :=
                  if to_boolean limited
                  then push loginData (project_login row)
                  else push loginData row in
                (loginData, [Log loginData])
            end);
          db_close ]
    end) ;;
  mret VUndef.

(** lines 106-152 *)
Definition getCookies (h : host) (E : engine)
    (browser limited cookiesFilePath : value) : run value :=
  cookiesFilePath ←
    (if negb (to_boolean cookiesFilePath)
     then pure_call (getBrowserFilePath h browser (VStr "Cookies"))
     else mret cookiesFilePath);
  new_Database E cookiesFilePath OPEN_READONLY (fun error =>
    match error with
    | Some error => [console_error error]
    | None =>
        [ db_all "SELECT * FROM cookies" (fun error rows =>
            match error with
            | Some error => [Error error]
            | None =>
                let cookies :=
                  fold_left (fun cookies row =>
                    if to_boolean limited
                    then push cookies (project_cookie row)
                    else push cookies row) rows [] in
                [Log cookies]
            end);
          db_close ]
    end) ;;
  mret VUndef.

(** lines 161-203 *)
Definition getCookiesEach (h : host) (E : engine)
    (browser limited cookiesFilePath : value) : run value :=
  cookiesFilePath ←
    (if negb (to_boolean cookiesFilePath)
     then pure_call (getBrowserFilePath h browser (VStr "Cookies"))
     else mret cookiesFilePath);
  new_Database E cookiesFilePath OPEN_READONLY (fun error =>
    match error with
    | Some error => [console_error error]
    | None =>
        let cookies := [] in
        [ db_each "SELECT * FROM cookies" cookies (fun cookies error row =>
            match error with
            | Some error => (cookies, [Error error])
            | None =>
                let cookies :=
                  if to_boolean limited
                  then push cookies (project_cookie row)
                  else push cookies row in
                (cookies, [Log cookies])
            end);
          db_close ]
    end) ;;
  mret VUndef.

(** lines 212-252 *)
Definition getUrlHistory (h : host) (E : engine)
    (browser limited historyFilePath : value) : run value :=
  historyFilePath ←
    (if negb (to_boolean historyFilePath)
     then pure_call (getBrowserFilePath h browser (VStr "History"))
     else mret historyFilePath);
  new_Database E historyFilePath OPEN_READONLY (fun error =>
    match error with
    | Some error => [console_error error]
    | None =>
        [ db_all "SELECT * FROM urls" (fun error rows =>
            match error with
            | Some error => [Error error]
            | None =>
                let history :=
                  fold_left (fun history row =>
                    if to_boolean limited
                    then push history (project_url row)
                    else push history row) rows [] in
                [Log history]
            end);
          db_close ]
    end) ;;
  mret VUndef.

(** lines 261-303. The open callback ends after [db.all]: there is no
    [db.close()] in this function. *)
Definition getDownloadHistory (h : host) (E : engine)
    (browser limited historyFilePath : value) : run value :=
  historyFilePath ←
    (if negb (to_boolean historyFilePath)
     then pure_call (getBrowserFilePath h browser (VStr "History"))
     else mret historyFilePath);
  new_Database E historyFilePath OPEN_READONLY (fun error =>
    match error with
    | Some error => [console_error error]
    | None =>
        [ db_all "SELECT * FROM downloads" (fun error rows =>
            match error with
            | Some error => [Error error]
            | None =>
                let downloadHistory :=
                  fold_left (fun downloadHistory row =>
                    if to_boolean limited
                    then push downloadHistory (project_download row)
                    else push downloadHistory row) rows [] in
                [Log downloadHistory]
            end) ]
    end) ;;
  mret VUndef.

(** The six properties of [exports]. *)
Inductive operation : Type :=
| GetLoginData | GetLoginDataEach | GetCookies | GetCookiesEach
| GetUrlHistory | GetDownloadHistory.

Definition exports (op : operation) : host -> engine -> value -> value -> value -> run value :=
  match op with
  | GetLoginData => getLoginData
  | GetLoginDataEach => getLoginDataEach
  | GetCookies => getCookies
  | GetCookiesEach => getCookiesEach
  | GetUrlHistory => getUrlHistory
  | GetDownloadHistory => getDownloadHistory
  end.

(** The file name, the statement and the projection of each operation, as
    its source has them. *)
Definition file_name (op : operation) : string :=
  match op with
  | GetLoginData | GetLoginDataEach => "Login Data"
  | GetCookies | GetCookiesEach => "Cookies"
  | GetUrlHistory | GetDownloadHistory => "History"
  end.

Definition statement (op : operation) : string :=
  match op with
  | GetLoginData | GetLoginDataEach => "SELECT * FROM logins"
  | GetCookies | GetCookiesEach => "SELECT * FROM cookies"
  | GetUrlHistory => "SELECT * FROM urls"
  | GetDownloadHistory => "SELECT * FROM downloads"
  end.

Definition projection (op : operation) : obj -> obj :=
  match op with
  | GetLoginData | GetLoginDataEach => project_login
  | GetCookies | GetCookiesEach => project_cookie
  | GetUrlHistory => project_url
  | GetDownloadHistory => project_download
  end.

(** ** Reading the six functions together *)

(** The first statement of each function (lines 17, 64, 107, 162, 213,
    262): the path that is opened is the override when it is truthy, and the
    result of [getBrowserFilePath] otherwise. *)
Definition target (h : host) (op : operation) (browser filePath : value) : completion value :=
  if to_boolean filePath then Return filePath
  else getBrowserFilePath h browser (VStr (file_name op)).

(** The four functions that query with [db.all] and the two that query
    with [db.each]; the five that call [db.close()] and the one that does
    not. *)
Definition uses_each (op : operation) : bool :=
  match op with GetLoginDataEach | GetCookiesEach => true | _ => false end.

Definition calls_close (op : operation) : bool :=
  match op with GetDownloadHistory => false | _ => true end.

(** What is pushed for a row. *)
Definition emitted (op : operation) (limited : value) (row : obj) : obj :=
  if to_boolean limited then projection op row else row.

(** The arrays [array ++ [x1]], [array ++ [x1; x2]], ... that
    [console.log] prints while the elements of [xs] are pushed one by one. *)
Fixpoint growing (array : list obj) (xs : list obj) : list (list obj) :=
  match xs with
  | [] => []
  | x :: xs => push array x :: growing (push array x) xs
  end.

(** The console lines of the query callback of [op] when the database
    answers the statement with [answer]. *)
Definition query_lines (op : operation) (limited : value) (answer : query_outcome) : list console :=
  match answer with
  | QueryFailed e => [Error e]
  | QueryRows rows =>
      if uses_each op
      then map Log (growing [] (map (emitted op limited) rows))
      else [Log (map (emitted op limited) rows)]
  | QueryPartial rows e =>
      if uses_each op
      then map Log (growing [] (map (emitted op limited) rows)) ++ [Error e]
      else [Error e]
  end.

(** The run of [op], case by case: the outline the six functions share. *)
Definition outline (op : operation) (h : host) (E : engine)
    (browser limited filePath : value) : run value :=
  match target h op browser filePath with
  | Throw e => Run (Throw e) []
  | Return p =>
      match sq_open E p OPEN_READONLY with
      | CtorThrows e => Run (Throw e) [EvNew p OPEN_READONLY]
      | OpenFailed e =>
          Run (Return VUndef) [EvNew p OPEN_READONLY; EvConsole (Error e)]
      | Opened d =>
          Run (Return VUndef)
            (EvNew p OPEN_READONLY :: EvOpened :: EvQuery (statement op) ::
             map EvConsole (query_lines op limited (d (statement op))) ++
             (if calls_close op then [EvClosed] else []))
      end
  end.

(** Whether the call gets as far as an opened database. *)
Definition opens_store (op : operation) (h : host) (E : engine)
    (browser filePath : value) : bool :=
  match target h op browser filePath with
  | Return p =>
      match sq_open E p OPEN_READONLY with
      | Opened _ => true
      | _ => false
      end
  | Throw _ => false
  end.


(** The browser identifiers [getBrowserFilePath] knows. *)
Definition known_browsers : list value := [VStr "chrome"; VStr "opera"; VStr "yandex"].

(** An operation fails fast when it ends without having called the store
    opener. *)
Definition fails_fast (r : run value) : Prop :=
  forall filename mode, ~ In (EvNew filename mode) (events r).

(** ** A concrete host and engine *)

(** A simplified [path.win32.join] for paths without [.] and [..]
    segments: the non-empty segments are joined with a backslash and runs of
    backslashes are collapsed. *)
Definition is_backslash (a : ascii) : bool := Ascii.eqb a "\"%char.

Fixpoint collapse (s : string) : string :=
  match s with
  | EmptyString => EmptyString
  | String a rest =>
      match rest with
      | String b _ =>
          if is_backslash a && is_backslash b then collapse rest
          else String a (collapse rest)
      | EmptyString => String a EmptyString
      end
  end.

Definition win32_join (segments : list string) : string :=
  collapse (String.concat "\"
    (filter (fun seg => negb (String.eqb seg EmptyString)) segments)).

(** A Windows profile, and a host where [LOCALAPPDATA] is not set. *)
Definition windows_host : host :=
  Host (VStr "C:\Users\alice\AppData\Local") win32_join.

Definition unset_host : host := Host VUndef win32_join.

Definition SQLITE_CANTOPEN : js_error :=
  JsError "Error" "SQLITE_CANTOPEN: unable to open database file".

Definition no_such_table : js_error :=
  JsError "Error" "SQLITE_ERROR: no such table".

Definition String_expected : js_error := JsError "TypeError" "String expected".

(** A database made of named tables: it answers [SELECT * FROM t]. *)
Definition table_database (tables : gmap string (list obj)) : database :=
  fun sql =>
    if String.prefix "SELECT * FROM " sql then
      match tables !! String.substring 14 (String.length sql - 14) sql with
      | Some rows => QueryRows rows
      | None => QueryFailed no_such_table
      end
    else QueryFailed no_such_table.

(** sqlite3 over a set of files: a file name that is not a string makes the
    constructor throw, a missing file is reported to the callback. *)
Definition sqlite3_over (files : gmap string database) : engine :=
  Engine (fun filename mode =>
    match filename with
    | VStr name =>
        match files !! name with
        | Some d => Opened d
        | None => OpenFailed SQLITE_CANTOPEN
        end
    | _ => CtorThrows String_expected
    end).

Definition example_login_row : obj :=
  {[ "origin_url" := VStr "https://example.com";
     "username_value" := VStr "alice";
     "password_value" := VBuffer [118; 49; 48];
     "times_used" := VNum 4 ]}.

Definition second_login_row : obj :=
  {[ "origin_url" := VStr "https://b.org";
     "username_value" := VStr "bob";
     "password_value" := VBuffer [];
     "times_used" := VNum 0 ]}.

Definition example_cookie_row : obj :=
  {[ "host_key" := VStr ".example.com";
     "name" := VStr "sid";
     "value" := VStr "plain";
     "encrypted_value" := VBuffer [1; 2];
     "path" := VStr "/";
     "expires_utc" := VNum 13281000000000;
     "secure" := VNum 1;
     "httponly" := VNum 0;
     "last_access_utc" := VNum 13280000000000;
     "has_expires" := VNum 1;
     "persistent" := VNum 1;
     "priority" := VNum 2 ]}.

Definition example_url_row : obj :=
  {[ "id" := VNum 1; "url" := VStr "https://a.com"; "title" := VStr "A";
     "visit_count" := VNum 3; "last_visit_time" := VNum 13281000000000 ]}.

Definition example_download_row : obj :=
  {[ "id" := VNum 7; "guid" := VStr "g-7"; "current_path" := VStr "C:\dl\a.zip";
     "target_path" := VStr "C:\dl\a.zip"; "total_bytes" := VNum 1024;
     "referrer" := VStr "https://a.com"; "site_url" := VStr "https://a.com";
     "tab_url" := VStr "https://a.com/files"; "mime_type" := VStr "application/zip" ]}.

Definition example_files : gmap string database :=
  {[ "C:\backup\Login Data" :=
       table_database {[ "logins" := [example_login_row; second_login_row] ]};
     "C:\backup\Cookies" :=
       table_database {[ "cookies" := [example_cookie_row] ]};
     "C:\backup\History" :=
       table_database {[ "urls" := [example_url_row];
                         "downloads" := [example_download_row] ]} ]}.

Definition example_engine : engine := sqlite3_over example_files.


(** ** Observations of a trace *)

(** The calls of the store opener, the statements run and the errors
    written with [console.error], each in order. *)
Definition opener_calls (t : list event) : list (value * open_mode) :=
  omap (fun ev => match ev with EvNew f m => Some (f, m) | _ => None end) t.

Definition queries (t : list event) : list string :=
  omap (fun ev => match ev with EvQuery sql => Some sql | _ => None end) t.



(** A profile whose tables are empty, and the example files with the rows
    of [logins] in the other order. *)
Definition fresh_files : gmap string database :=
  {[ "C:\fresh\Login Data" := table_database {[ "logins" := [] ]};
     "C:\fresh\Cookies" := table_database {[ "cookies" := [] ]};
     "C:\fresh\History" := table_database {[ "urls" := []; "downloads" := [] ]} ]}.

Definition fresh_engine : engine := sqlite3_over fresh_files.

Definition reordered_files : gmap string database :=
  {[ "C:\backup\Login Data" :=
       table_database {[ "logins" := [second_login_row; example_login_row] ]} ]}.

Definition reordered_engine : engine := sqlite3_over reordered_files.

(** A damaged Login Data file: the first row of [logins] is read, then the
    step fails. *)
Definition SQLITE_CORRUPT : js_error :=
  JsError "Error" "SQLITE_CORRUPT: database disk image is malformed".

Definition damaged_database : database :=
  fun sql =>
    if String.eqb sql "SELECT * FROM logins"
    then QueryPartial [example_login_row] SQLITE_CORRUPT
    else QueryFailed no_such_table.

Definition damaged_engine : engine :=
  sqlite3_over {[ "C:\damaged\Login Data" := damaged_database ]}.

(** * Properties *)

Local Open Scope list_scope.

(** ** The loops and the outline *)

Lemma fold_push (f : obj -> obj) (rows array : list obj) :
  fold_left (fun array row => push array (f row)) rows array = array ++ map f rows.
Proof.
  revert array. induction rows as [|row rows IH]; intros array; simpl.
  - by rewrite app_nil_r.
  - rewrite IH. unfold push. by rewrite <- app_assoc.
Qed.

Lemma fold_push_limited (limited : bool) (f : obj -> obj) (rows : list obj) :
  fold_left (fun array row => if limited then push array (f row) else push array row)
    rows [] = map (fun row => if limited then f row else row) rows.
Proof.
  destruct limited.
  - apply (fold_push f rows []).
  - apply (fold_push (fun row => row) rows []).
Qed.

Lemma each_row_growing (limited : bool) (f : obj -> obj) (rows array : list obj) :
  each_row (fun array (error : option js_error) row =>
      match error with
      | Some error => (array, [Error error])
      | None =>
          let array := if limited then push array (f row) else push array row in
          (array, [Log array])
      end) array rows
  = map Log (growing array (map (fun row => if limited then f row else row) rows)).
Proof.
  revert array. induction rows as [|row rows IH]; intros array; simpl; [done|].
  rewrite IH. by destruct limited.
Qed.

Lemma last_growing (array xs : list obj) :
  last (growing array xs) = match xs with [] => None | _ => Some (array ++ xs) end.
Proof.
  revert array. induction xs as [|x xs IH]; intros array; [done|].
  simpl growing. destruct xs as [|y xs].
  - done.
  - change (last (push array x :: growing (push array x) (y :: xs)))
      with (last (growing (push array x) (y :: xs))).
    rewrite IH. unfold push. by rewrite <- app_assoc.
Qed.


(** Each exported function runs as the outline says. *)
Lemma exports_outline (op : operation) (h : host) (E : engine)
    (browser limited filePath : value) :
  exports op h E browser limited filePath = outline op h E browser limited filePath.
Proof.
  unfold outline, target.
  destruct op; simpl exports;
    [ unfold getLoginData | unfold getLoginDataEach | unfold getCookies
    | unfold getCookiesEach | unfold getUrlHistory | unfold getDownloadHistory ];
    (destruct (to_boolean filePath); simpl negb; cbv iota;
     [ | destruct (getBrowserFilePath h browser _) as [p|e]; [|reflexivity] ]);
    unfold mbind, run_bind, mret, run_ret, pure_call, new_Database; simpl;
    (match goal with |- context [sq_open E ?p OPEN_READONLY] =>
       destruct (sq_open E p OPEN_READONLY) as [e|e|d] end; simpl; [reflexivity..|]);
    unfold query_lines, emitted; simpl;
    (match goal with
     | |- context [match ?x with
                   | QueryFailed _ => _ | QueryRows _ => _ | QueryPartial _ _ => _
                   end] => destruct x as [e|rows|rows e]
     end; simpl; [reflexivity| |]);
    rewrite ?fold_push_limited, ?each_row_growing, ?app_nil_r; reflexivity.
Qed.

(** ** Reading properties *)

Lemma get_prop_insert_eq (o : obj) (k : string) (v : value) :
  get_prop (<[k:=v]> o) k = v.
Proof. unfold get_prop. by rewrite lookup_insert_eq. Qed.

Lemma get_prop_insert_ne (o : obj) (k k' : string) (v : value) :
  k <> k' -> get_prop (<[k:=v]> o) k' = get_prop o k'.
Proof. intros Hne. unfold get_prop. by rewrite lookup_insert_ne. Qed.

Lemma get_prop_delete_ne (o : obj) (k k' : string) :
  k <> k' -> get_prop (delete k o) k' = get_prop o k'.
Proof. intros Hne. unfold get_prop. by rewrite lookup_delete_ne. Qed.

(** The native column names read from a projected record: a column whose
    name is also a field of the record reads that field, every other one
    reads [undefined]. *)
Lemma project_login_reads (row : obj) :
  get_prop (project_login row) "origin_url" = VUndef /\
  get_prop (project_login row) "username_value" = VUndef /\
  get_prop (project_login row) "password_value" = VUndef.
Proof. repeat split; vm_compute; reflexivity. Qed.

Lemma project_cookie_reads (row : obj) :
  get_prop (project_cookie row) "host_key" = VUndef /\
  get_prop (project_cookie row) "name" = get_prop row "name" /\
  get_prop (project_cookie row) "encrypted_value" = VUndef /\
  get_prop (project_cookie row) "path" = get_prop row "path" /\
  get_prop (project_cookie row) "expires_utc" = VUndef /\
  get_prop (project_cookie row) "secure" = VBool (to_boolean (get_prop row "secure")) /\
  get_prop (project_cookie row) "httponly" = VUndef /\
  get_prop (project_cookie row) "last_access_utc" = VUndef /\
  get_prop (project_cookie row) "has_expires" = VUndef /\
  get_prop (project_cookie row) "persistent" = VBool (to_boolean (get_prop row "persistent")) /\
  get_prop (project_cookie row) "priority" = VBool (to_boolean (get_prop row "priority")).
Proof. repeat split; vm_compute; reflexivity. Qed.

Lemma project_url_reads (row : obj) :
  get_prop (project_url row) "id" = get_prop row "id" /\
  get_prop (project_url row) "url" = get_prop row "url" /\
  get_prop (project_url row) "title" = get_prop row "title" /\
  get_prop (project_url row) "visit_count" = VUndef /\
  get_prop (project_url row) "last_visit_time" = VUndef.
Proof. repeat split; vm_compute; reflexivity. Qed.

Lemma project_download_reads (row : obj) :
  get_prop (project_download row) "id" = get_prop row "id" /\
  get_prop (project_download row) "guid" = get_prop row "guid" /\
  get_prop (project_download row) "current_path" = VUndef /\
  get_prop (project_download row) "target_path" = VUndef /\
  get_prop (project_download row) "total_bytes" = VUndef /\
  get_prop (project_download row) "referrer" = get_prop row "referrer" /\
  get_prop (project_download row) "site_url" = VUndef /\
  get_prop (project_download row) "tab_url" = VUndef /\
  get_prop (project_download row) "mime_type" = VUndef.
Proof. repeat split; vm_compute; reflexivity. Qed.

Lemma to_boolean_VBool (b : bool) : to_boolean (VBool b) = b.
Proof. reflexivity. Qed.

(** Projecting a projected record, for each of the four kinds. *)
Lemma reproject_login (row : obj) :
  project_login (project_login row) =
  {[ "originUrl" := VUndef; "username" := VUndef; "password" := VUndef ]}.
Proof.
  destruct (project_login_reads row) as (H1 & H2 & H3).
  unfold project_login at 1. by rewrite H1, H2, H3.
Qed.

Lemma reproject_cookie (row : obj) :
  project_cookie (project_cookie row) =
  {[ "hostKey" := VUndef;
     "name" := get_prop row "name";
     "value" := VUndef;
     "path" := get_prop row "path";
     "expiresUtc" := VUndef;
     "secure" := VBool (to_boolean (get_prop row "secure"));
     "httpOnly" := VBool false;
     "lastAccessUtc" := VUndef;
     "expired" := VBool false;
     "persistent" := VBool (to_boolean (get_prop row "persistent"));
     "priority" := VBool (to_boolean (get_prop row "priority")) ]}.
Proof.
  destruct (project_cookie_reads row)
    as (H1 & H2 & H3 & H4 & H5 & H6 & H7 & H8 & H9 & H10 & H11).
  unfold project_cookie at 1.
  by rewrite H1, H2, H3, H4, H5, H6, H7, H8, H9, H10, H11, !to_boolean_VBool.
Qed.

Lemma reproject_url (row : obj) :
  project_url (project_url row) =
  {[ "id" := get_prop row "id";
     "url" := get_prop row "url";
     "title" := get_prop row "title";
     "visits" := VUndef;
     "lastVisit" := VUndef ]}.
Proof.
  destruct (project_url_reads row) as (H1 & H2 & H3 & H4 & H5).
  unfold project_url at 1. by rewrite H1, H2, H3, H4, H5.
Qed.

Lemma reproject_download (row : obj) :
  project_download (project_download row) =
  {[ "id" := get_prop row "id";
     "guid" := get_prop row "guid";
     "currentPath" := VUndef;
     "targetPath" := VUndef;
     "totalBytes" := VUndef;
     "referrer" := get_prop row "referrer";
     "siteUrl" := VUndef;
     "tabUrl" := VUndef;
     "mimeType" := VUndef ]}.
Proof.
  destruct (project_download_reads row)
    as (H1 & H2 & H3 & H4 & H5 & H6 & H7 & H8 & H9).
  unfold project_download at 1. by rewrite H1, H2, H3, H4, H5, H6, H7, H8, H9.
Qed.

Lemma reproject_stable (op : operation) (row : obj) :
  projection op (projection op (projection op row)) =
  projection op (projection op row).
Proof.
  destruct op; simpl projection.
  - by rewrite !reproject_login.
  - by rewrite !reproject_login.
  - rewrite (reproject_cookie (project_cookie row)), (reproject_cookie row).
    destruct (project_cookie_reads row) as (_ & H2 & _ & H4 & _ & H6 & _ & _ & _ & H10 & H11).
    by rewrite H2, H4, H6, H10, H11, !to_boolean_VBool.
  - rewrite (reproject_cookie (project_cookie row)), (reproject_cookie row).
    destruct (project_cookie_reads row) as (_ & H2 & _ & H4 & _ & H6 & _ & _ & _ & H10 & H11).
    by rewrite H2, H4, H6, H10, H11, !to_boolean_VBool.
  - rewrite (reproject_url (project_url row)), (reproject_url row).
    destruct (project_url_reads row) as (H1 & H2 & H3 & _).
    by rewrite H1, H2, H3.
  - rewrite (reproject_download (project_download row)), (reproject_download row).
    destruct (project_download_reads row) as (H1 & H2 & _ & _ & _ & H6 & _).
    by rewrite H1, H2, H6.
Qed.

Lemma reproject_dom (op : operation) (row : obj) :
  dom (projection op (projection op row)) = dom (projection op row).
Proof.
  destruct op; simpl projection;
    unfold project_login, project_cookie, project_url, project_download;
    by rewrite !dom_insert_L, !dom_singleton_L.
Qed.

(** ** The projections *)

(** C2, as the specification states it, fails on a login row: the record
    projected twice differs from the record projected once. *)
Lemma project_login_not_idempotent :
  project_login (project_login example_login_row) <> project_login example_login_row.
Proof.
  intros H. apply (f_equal (fun o => get_prop o "originUrl")) in H.
  vm_compute in H. discriminate.
Qed.

(** C2, amended. Projecting a projected record keeps its field names and
    reads the native column names from it: a field that has the name of its
    native column keeps its value, every renamed field becomes [undefined]
    ([false] for the coerced flags [httpOnly] and [expired]). The projection
    is idempotent from its second application on. *)
Theorem reprojection (row : obj) :
  project_login (project_login row) =
    {[ "originUrl" := VUndef; "username" := VUndef; "password" := VUndef ]} /\
  project_cookie (project_cookie row) =
    {[ "hostKey" := VUndef;
       "name" := get_prop row "name";
       "value" := VUndef;
       "path" := get_prop row "path";
       "expiresUtc" := VUndef;
       "secure" := VBool (to_boolean (get_prop row "secure"));
       "httpOnly" := VBool false;
       "lastAccessUtc" := VUndef;
       "expired" := VBool false;
       "persistent" := VBool (to_boolean (get_prop row "persistent"));
       "priority" := VBool (to_boolean (get_prop row "priority")) ]} /\
  project_url (project_url row) =
    {[ "id" := get_prop row "id";
       "url" := get_prop row "url";
       "title" := get_prop row "title";
       "visits" := VUndef;
       "lastVisit" := VUndef ]} /\
  project_download (project_download row) =
    {[ "id" := get_prop row "id";
       "guid" := get_prop row "guid";
       "currentPath" := VUndef;
       "targetPath" := VUndef;
       "totalBytes" := VUndef;
       "referrer" := get_prop row "referrer";
       "siteUrl" := VUndef;
       "tabUrl" := VUndef;
       "mimeType" := VUndef ]} /\
  forall op : operation,
    dom (projection op (projection op row)) = dom (projection op row) /\
    projection op (projection op (projection op row)) =
    projection op (projection op row).
Proof.
  split; [apply reproject_login|].
  split; [apply reproject_cookie|].
  split; [apply reproject_url|].
  split; [apply reproject_download|].
  intros op. split; [apply reproject_dom|apply reproject_stable].
Qed.

(** C7. In the projected cookie record each of the five flags is the
    boolean [Boolean(v)] of the value [v] of its native column: [true] for
    [1] and for every other number but [0], [false] for [0]; also [true] for
    a non-empty string and for a Buffer, [false] for [null] and for a missing
    column. *)
Theorem cookie_flags_boolean (row : obj) (v : value) (n : Z) :
  project_cookie (<["secure" := v]> row) !! "secure" = Some (VBool (to_boolean v)) /\
  project_cookie (<["httponly" := v]> row) !! "httpOnly" = Some (VBool (to_boolean v)) /\
  project_cookie (<["has_expires" := v]> row) !! "expired" = Some (VBool (to_boolean v)) /\
  project_cookie (<["persistent" := v]> row) !! "persistent" = Some (VBool (to_boolean v)) /\
  project_cookie (<["priority" := v]> row) !! "priority" = Some (VBool (to_boolean v)) /\
  to_boolean (VNum 1) = true /\
  to_boolean (VNum 0) = false /\
  to_boolean (VNum n) = negb (n =? 0) /\
  to_boolean VNull = false /\
  to_boolean VUndef = false /\
  project_cookie (delete "secure" row) !! "secure" = Some (VBool false).
Proof.
  assert (Hflags : forall r : obj,
    project_cookie r !! "secure" = Some (VBool (to_boolean (get_prop r "secure"))) /\
    project_cookie r !! "httpOnly" = Some (VBool (to_boolean (get_prop r "httponly"))) /\
    project_cookie r !! "expired" = Some (VBool (to_boolean (get_prop r "has_expires"))) /\
    project_cookie r !! "persistent" = Some (VBool (to_boolean (get_prop r "persistent"))) /\
    project_cookie r !! "priority" = Some (VBool (to_boolean (get_prop r "priority"))))
    by (intros r; repeat split; reflexivity).
  repeat split; try reflexivity.
  - destruct (Hflags (<["secure" := v]> row)) as (H & _).
    by rewrite H, get_prop_insert_eq.
  - destruct (Hflags (<["httponly" := v]> row)) as (_ & H & _).
    by rewrite H, get_prop_insert_eq.
  - destruct (Hflags (<["has_expires" := v]> row)) as (_ & _ & H & _).
    by rewrite H, get_prop_insert_eq.
  - destruct (Hflags (<["persistent" := v]> row)) as (_ & _ & _ & H & _).
    by rewrite H, get_prop_insert_eq.
  - destruct (Hflags (<["priority" := v]> row)) as (_ & _ & _ & _ & H).
    by rewrite H, get_prop_insert_eq.
  - destruct (Hflags (delete "secure" row)) as (H & _).
    rewrite H. unfold get_prop. by rewrite lookup_delete_eq.
Qed.

(** C9. The field [value] of the projected cookie record is the column
    [encrypted_value]; the column [value] is not read: whatever it holds, and
    whether the row has it or not, the projected record is the same. *)
Theorem cookie_value_is_encrypted_value (row : obj) (v : value) :
  project_cookie row !! "value" = Some (get_prop row "encrypted_value") /\
  project_cookie (<["value" := v]> row) = project_cookie row /\
  project_cookie (delete "value" row) = project_cookie row.
Proof.
  split; [reflexivity|].
  split; unfold project_cookie.
  - by rewrite !(get_prop_insert_ne row "value") by discriminate.
  - by rewrite !(get_prop_delete_ne row "value") by discriminate.
Qed.

(** The record of the specification's example row. *)
Lemma project_login_example :
  project_login example_login_row =
  {[ "originUrl" := VStr "https://example.com";
     "username" := VStr "alice";
     "password" := VBuffer [118; 49; 48] ]}.
Proof. reflexivity. Qed.

(** The projection of the example cookie row. *)
Lemma project_cookie_example :
  project_cookie example_cookie_row =
  {[ "hostKey" := VStr ".example.com";
     "name" := VStr "sid";
     "value" := VBuffer [1; 2];
     "path" := VStr "/";
     "expiresUtc" := VNum 13281000000000;
     "secure" := VBool true;
     "httpOnly" := VBool false;
     "lastAccessUtc" := VNum 13280000000000;
     "expired" := VBool true;
     "persistent" := VBool true;
     "priority" := VBool true ]}.
Proof. reflexivity. Qed.

(** The record of the specification's history row. *)
Lemma project_url_example :
  project_url example_url_row =
  {[ "id" := VNum 1; "url" := VStr "https://a.com"; "title" := VStr "A";
     "visits" := VNum 3; "lastVisit" := VNum 13281000000000 ]}.
Proof. reflexivity. Qed.

(** ** The path resolver *)

Lemma strict_eq_str_true (a : value) (lit : string) :
  strict_eq_str a lit = true <-> a = VStr lit.
Proof.
  destruct a; simpl; try (split; [discriminate|discriminate]).
  rewrite String.eqb_eq. split; [by intros ->|by intros [= ->]].
Qed.

Lemma unknown_browser (h : host) (browser fileName : value) :
  browser ∉ known_browsers -> getBrowserFilePath h browser fileName = Return VUndef.
Proof.
  intros Hb. unfold getBrowserFilePath.
  destruct (strict_eq_str browser "chrome") eqn:H1.
  { apply strict_eq_str_true in H1. subst. exfalso. apply Hb. set_solver. }
  destruct (strict_eq_str browser "opera") eqn:H2.
  { apply strict_eq_str_true in H2. subst. exfalso. apply Hb. set_solver. }
  destruct (strict_eq_str browser "yandex") eqn:H3.
  { apply strict_eq_str_true in H3. subst. exfalso. apply Hb. set_solver. }
  reflexivity.
Qed.

(** C8. With [LOCALAPPDATA] set to the directory [appdata],
    [getBrowserFilePath] returns for each known browser the join of
    [appdata], the directory of the vendor and the file name, for every file
    name; for a browser outside the known set it returns [undefined], whatever
    the environment, and does not throw. *)
Theorem getBrowserFilePath_resolves (h : host) (appdata fileName : string) :
  LOCALAPPDATA h = VStr appdata ->
  getBrowserFilePath h (VStr "chrome") (VStr fileName) =
    Return (VStr (join_strings h
      [appdata; "\Google\Chrome\User Data\Default\"; fileName])) /\
  getBrowserFilePath h (VStr "opera") (VStr fileName) =
    Return (VStr (join_strings h
      [appdata; "\Opera Software\Opera Stable\"; fileName])) /\
  getBrowserFilePath h (VStr "yandex") (VStr fileName) =
    Return (VStr (join_strings h
      [appdata; "\Yandex\YandexBrowser\User Data\Default\"; fileName])) /\
  forall (h' : host) (browser file : value),
    browser ∉ known_browsers -> getBrowserFilePath h' browser file = Return VUndef.
Proof.
  intros Henv. unfold getBrowserFilePath, path_join. rewrite Henv.
  repeat split. intros h' browser file. apply unknown_browser.
Qed.

Lemma getBrowserFilePath_resolves_witness :
  getBrowserFilePath windows_host (VStr "chrome") (VStr "Login Data") =
    Return (VStr (join_strings windows_host
      ["C:\Users\alice\AppData\Local"; "\Google\Chrome\User Data\Default\"; "Login Data"])) /\
  getBrowserFilePath windows_host (VStr "opera") (VStr "Login Data") =
    Return (VStr (join_strings windows_host
      ["C:\Users\alice\AppData\Local"; "\Opera Software\Opera Stable\"; "Login Data"])) /\
  getBrowserFilePath windows_host (VStr "yandex") (VStr "Login Data") =
    Return (VStr (join_strings windows_host
      ["C:\Users\alice\AppData\Local"; "\Yandex\YandexBrowser\User Data\Default\";
       "Login Data"])) /\
  forall (h' : host) (browser file : value),
    browser ∉ known_browsers -> getBrowserFilePath h' browser file = Return VUndef.
Proof.
  apply (getBrowserFilePath_resolves windows_host "C:\Users\alice\AppData\Local" "Login Data").
  reflexivity.
Defined.

(** The nine paths on the Windows profile, under the simplified join. *)
Lemma getBrowserFilePath_examples :
  map (fun browser =>
         map (fun fileName => getBrowserFilePath windows_host (VStr browser) (VStr fileName))
           ["Login Data"; "Cookies"; "History"])
    ["chrome"; "opera"; "yandex"] =
  [ [ Return (VStr "C:\Users\alice\AppData\Local\Google\Chrome\User Data\Default\Login Data");
      Return (VStr "C:\Users\alice\AppData\Local\Google\Chrome\User Data\Default\Cookies");
      Return (VStr "C:\Users\alice\AppData\Local\Google\Chrome\User Data\Default\History") ];
    [ Return (VStr "C:\Users\alice\AppData\Local\Opera Software\Opera Stable\Login Data");
      Return (VStr "C:\Users\alice\AppData\Local\Opera Software\Opera Stable\Cookies");
      Return (VStr "C:\Users\alice\AppData\Local\Opera Software\Opera Stable\History") ];
    [ Return (VStr "C:\Users\alice\AppData\Local\Yandex\YandexBrowser\User Data\Default\Login Data");
      Return (VStr "C:\Users\alice\AppData\Local\Yandex\YandexBrowser\User Data\Default\Cookies");
      Return (VStr "C:\Users\alice\AppData\Local\Yandex\YandexBrowser\User Data\Default\History") ] ].
Proof. reflexivity. Qed.

(** Without [LOCALAPPDATA], [path.join] gets [undefined] and throws. *)
Lemma getBrowserFilePath_unset (h : host) (fileName : value) :
  LOCALAPPDATA h = VUndef ->
  getBrowserFilePath h (VStr "chrome") fileName = Throw ERR_INVALID_ARG_TYPE.
Proof. intros Henv. unfold getBrowserFilePath, path_join. by rewrite Henv. Qed.

(** ** Traces *)

Lemma logged_app (t1 t2 : list event) : logged (t1 ++ t2) = logged t1 ++ logged t2.
Proof. unfold logged. apply omap_app. Qed.

Lemma logged_logs (arrays : list (list obj)) :
  logged (map EvConsole (map Log arrays)) = arrays.
Proof. induction arrays as [|a arrays IH]; [done|]. simpl. by rewrite <- IH at 2. Qed.

Lemma logged_logs_error (arrays : list (list obj)) (e : js_error) :
  logged (map EvConsole (map Log arrays ++ [Error e])) = arrays.
Proof.
  rewrite map_app, logged_app, logged_logs. apply app_nil_r.
Qed.

Lemma handle_held_console (held : bool) (lines : list console) (t : list event) :
  handle_held held (map EvConsole lines ++ t) = handle_held held t.
Proof. induction lines as [|line lines IH]; [done|]. simpl. apply IH. Qed.

(** The arrays an operation logs when the statement yields [rows]. *)
Lemma logged_query_lines (op : operation) (limited : value) (rows : list obj) :
  logged (map EvConsole (query_lines op limited (QueryRows rows))) =
  if uses_each op then growing [] (map (emitted op limited) rows)
  else [map (emitted op limited) rows].
Proof.
  unfold query_lines. destruct (uses_each op).
  - apply logged_logs.
  - reflexivity.
Qed.

(** ** Runs of the exported functions *)

(** A run is read through the outline. *)
Ltac by_outline := rewrite exports_outline; unfold outline.

Section Runs.

Context (h : host) (E : engine) (browser limited filePath : value).

(** The arrays an exported function logs. *)
Lemma logged_exports (op : operation) :
  logged (events (exports op h E browser limited filePath)) =
  match target h op browser filePath with
  | Return p =>
      match sq_open E p OPEN_READONLY with
      | Opened d =>
          match d (statement op) with
          | QueryRows rows =>
              if uses_each op then growing [] (map (emitted op limited) rows)
              else [map (emitted op limited) rows]
          | QueryFailed _ => []
          | QueryPartial rows _ =>
              if uses_each op then growing [] (map (emitted op limited) rows)
              else []
          end
      | _ => []
      end
  | Throw _ => []
  end.
Proof.
  by_outline.
  destruct (target h op browser filePath) as [p|e]; [|done].
  destruct (sq_open E p OPEN_READONLY) as [e|e|d]; [done..|].
  simpl events.
  change (logged (EvNew p OPEN_READONLY :: EvOpened :: EvQuery (statement op) :: ?t))
    with (logged t).
  rewrite logged_app.
  replace (logged (if calls_close op then [EvClosed] else [])) with (@nil (list obj))
    by (by destruct (calls_close op)).
  rewrite app_nil_r. destruct (d (statement op)) as [e|rows|rows e]; [done| |].
  - apply logged_query_lines.
  - unfold query_lines. destruct (uses_each op); [|done].
    apply logged_logs_error.
Qed.

(** The records an exported function has produced when it is done. *)
Lemma last_logged_exports (op : operation) :
  last_logged (events (exports op h E browser limited filePath)) =
  match target h op browser filePath with
  | Return p =>
      match sq_open E p OPEN_READONLY with
      | Opened d =>
          match d (statement op) with
          | QueryRows rows => map (emitted op limited) rows
          | QueryFailed _ => []
          | QueryPartial rows _ =>
              if uses_each op then map (emitted op limited) rows else []
          end
      | _ => []
      end
  | Throw _ => []
  end.
Proof.
  unfold last_logged. rewrite logged_exports.
  destruct (target h op browser filePath) as [p|e]; [|done].
  destruct (sq_open E p OPEN_READONLY) as [e|e|d]; [done..|].
  destruct (d (statement op)) as [e|rows|rows e]; [done| |];
    (destruct (uses_each op); [|done]);
    rewrite last_growing; by destruct (map (emitted op limited) rows).
Qed.


(** C1. After a call of an exported function the handle is still held
    exactly when the function is [getDownloadHistory] and the database was
    opened: the five other functions release it on every path, also when the
    query fails, and a failed open leaves no handle behind. So
    [getDownloadHistory] does not close its connection as the other
    operations do. *)
Theorem handle_after_exports (op : operation) :
  handle_held false (events (exports op h E browser limited filePath)) =
  match op with
  | GetDownloadHistory => opens_store op h E browser filePath
  | _ => false
  end.
Proof.
  rewrite exports_outline. unfold outline, opens_store.
  destruct (target h op browser filePath) as [p|e]; [|by destruct op].
  destruct (sq_open E p OPEN_READONLY) as [e|e|d]; [by destruct op..|].
  simpl events.
  change (handle_held false (EvNew p OPEN_READONLY :: EvOpened :: EvQuery (statement op) :: ?t))
    with (handle_held true t).
  rewrite handle_held_console. by destruct op.
Qed.




(** C4. When the file the operation opens cannot be opened, the callback
    of the opener gets the error: the operation writes it with
    [console.error] and does nothing else. No statement is run and no array
    is logged. *)
Theorem open_failure_reported (op : operation) (p : value) (e : js_error) :
  target h op browser filePath = Return p ->
  sq_open E p OPEN_READONLY = OpenFailed e ->
  exports op h E browser limited filePath =
    Run (Return VUndef) [EvNew p OPEN_READONLY; EvConsole (Error e)] /\
  (forall sql, ~ In (EvQuery sql) (events (exports op h E browser limited filePath))) /\
  logged (events (exports op h E browser limited filePath)) = [].
Proof.
  intros Hp Hopen.
  assert (Hrun : exports op h E browser limited filePath =
                 Run (Return VUndef) [EvNew p OPEN_READONLY; EvConsole (Error e)]).
  { by_outline. by rewrite Hp, Hopen. }
  rewrite Hrun. split; [done|]. split; [|done].
  intros sql [H|[H|[]]]; discriminate.
Qed.

(** X17. When the constructor itself throws, the exception reaches the
    caller; again no statement is run and nothing is written. *)
Lemma constructor_failure_thrown (op : operation) (p : value) (e : js_error) :
  target h op browser filePath = Return p ->
  sq_open E p OPEN_READONLY = CtorThrows e ->
  exports op h E browser limited filePath = Run (Throw e) [EvNew p OPEN_READONLY].
Proof.
  intros Hp Hopen. by_outline. by rewrite Hp, Hopen.
Qed.

(** When the statement fails, the error is written and the connection is
    closed by the functions that call [db.close()]. *)
Lemma query_failure_reported (op : operation) (p : value) (d : database) (e : js_error) :
  target h op browser filePath = Return p ->
  sq_open E p OPEN_READONLY = Opened d ->
  d (statement op) = QueryFailed e ->
  exports op h E browser limited filePath =
    Run (Return VUndef)
      (EvNew p OPEN_READONLY :: EvOpened :: EvQuery (statement op) ::
       EvConsole (Error e) :: (if calls_close op then [EvClosed] else [])).
Proof.
  intros Hp Hopen Hq. by_outline.
  by rewrite Hp, Hopen, Hq.
Qed.

(** C5, amended. For a browser identifier outside the known set and no
    override path, [getBrowserFilePath] returns [undefined] and the
    operation passes it to the store opener as the file name: the first
    event is that call, and the caller gets what the opener does with it (its
    exception when the constructor throws, [undefined] otherwise). There is
    no check for an unsupported browser. *)
Theorem unsupported_browser_opens_undefined (op : operation) :
  browser ∉ known_browsers ->
  to_boolean filePath = false ->
  getBrowserFilePath h browser (VStr (file_name op)) = Return VUndef /\
  head (events (exports op h E browser limited filePath)) =
    Some (EvNew VUndef OPEN_READONLY) /\
  result (exports op h E browser limited filePath) =
    match sq_open E VUndef OPEN_READONLY with
    | CtorThrows e => Throw e
    | _ => Return VUndef
    end.
Proof.
  intros Hb Hpath.
  pose proof (unknown_browser h browser (VStr (file_name op)) Hb) as Hres.
  split; [done|].
  rewrite exports_outline. unfold outline, target. rewrite Hpath, Hres.
  by destruct (sq_open E VUndef OPEN_READONLY).
Qed.

(** C6. When the Login Data file opens and the statement yields [rows],
    [getLoginData] logs one array: with a truthy [limited] flag it holds, for
    every row, a record with exactly the fields [originUrl], [username] and
    [password], read from the columns [origin_url], [username_value] and
    [password_value]; with a falsy flag it holds the rows themselves, with
    all their columns. *)
Theorem login_fetch_fields (p : value) (d : database) (rows : list obj) :
  target h GetLoginData browser filePath = Return p ->
  sq_open E p OPEN_READONLY = Opened d ->
  d "SELECT * FROM logins" = QueryRows rows ->
  logged (events (getLoginData h E browser limited filePath)) =
    [if to_boolean limited then map project_login rows else rows] /\
  forall row : obj,
    dom (project_login row) = {[ "originUrl"; "username"; "password" ]} /\
    project_login row !! "originUrl" = Some (get_prop row "origin_url") /\
    project_login row !! "username" = Some (get_prop row "username_value") /\
    project_login row !! "password" = Some (get_prop row "password_value").
Proof.
  intros Hp Hopen Hrows. split.
  - pose proof (logged_exports GetLoginData) as Hl.
    simpl exports in Hl. rewrite Hl, Hp, Hopen. simpl statement. rewrite Hrows.
    simpl uses_each. cbv iota. unfold emitted. simpl projection.
    destruct (to_boolean limited); [done|]. by rewrite map_id.
  - intros row. split.
    + unfold project_login. rewrite !dom_insert_L, dom_singleton_L. set_solver.
    + repeat split; reflexivity.
Qed.

(** C10, amended. A call of an exported function throws exactly when
    [path.join] throws while the path is resolved or the constructor of the
    database throws; in every other case it returns [undefined]. It never
    returns another value: the records only appear in the events, as
    arguments of [console.log]. *)
Theorem exports_result (op : operation) :
  result (exports op h E browser limited filePath) =
  match target h op browser filePath with
  | Throw e => Throw e
  | Return p =>
      match sq_open E p OPEN_READONLY with
      | CtorThrows e => Throw e
      | _ => Return VUndef
      end
  end.
Proof.
  by_outline.
  destruct (target h op browser filePath) as [p|e]; [|done].
  by destruct (sq_open E p OPEN_READONLY).
Qed.

End Runs.

(** ** Examples, witnesses and counterexamples of the runs *)

(** X16. When the engine yields the rows of the table in another order to
    the second function, the records are the same up to that order. *)
Lemma records_up_to_row_order (op1 op2 : operation) (h : host) (E1 E2 : engine)
    (browser limited filePath p : value) (d1 d2 : database) (rows1 rows2 : list obj) :
  file_name op1 = file_name op2 ->
  statement op1 = statement op2 ->
  projection op1 = projection op2 ->
  target h op1 browser filePath = Return p ->
  sq_open E1 p OPEN_READONLY = Opened d1 ->
  sq_open E2 p OPEN_READONLY = Opened d2 ->
  d1 (statement op1) = QueryRows rows1 ->
  d2 (statement op1) = QueryRows rows2 ->
  rows1 ≡ₚ rows2 ->
  last_logged (events (exports op1 h E1 browser limited filePath)) ≡ₚ
  last_logged (events (exports op2 h E2 browser limited filePath)).
Proof.
  intros Hfile Hsql Hproj Hp H1 H2 Hd1 Hd2 Hperm.
  rewrite !last_logged_exports. unfold target in *.
  rewrite <- Hfile, <- Hsql, Hp, H1, H2, Hd1, Hd2.
  unfold emitted. rewrite <- Hproj. by apply Permutation_map.
Qed.

(** The run of [getDownloadHistory] on a History file that exists: the
    rows are logged and the trace ends there, without [EvClosed]. *)
Lemma getDownloadHistory_example :
  events (getDownloadHistory windows_host example_engine
            (VStr "chrome") (VBool false) (VStr "C:\backup\History")) =
  [ EvNew (VStr "C:\backup\History") OPEN_READONLY; EvOpened;
    EvQuery "SELECT * FROM downloads";
    EvConsole (Log [example_download_row]) ] /\
  events (getUrlHistory windows_host example_engine
            (VStr "chrome") (VBool false) (VStr "C:\backup\History")) =
  [ EvNew (VStr "C:\backup\History") OPEN_READONLY; EvOpened;
    EvQuery "SELECT * FROM urls";
    EvConsole (Log [example_url_row]); EvClosed ].
Proof. split; reflexivity. Qed.


Lemma open_failure_reported_witness :
  exports GetLoginData windows_host example_engine (VStr "chrome") (VBool true) VUndef =
    Run (Return VUndef)
      [ EvNew (VStr "C:\Users\alice\AppData\Local\Google\Chrome\User Data\Default\Login Data")
          OPEN_READONLY;
        EvConsole (Error SQLITE_CANTOPEN) ] /\
  (forall sql, ~ In (EvQuery sql)
     (events (exports GetLoginData windows_host example_engine
                (VStr "chrome") (VBool true) VUndef))) /\
  logged (events (exports GetLoginData windows_host example_engine
                    (VStr "chrome") (VBool true) VUndef)) = [].
Proof.
  apply (open_failure_reported windows_host example_engine
           (VStr "chrome") (VBool true) VUndef GetLoginData
           (VStr "C:\Users\alice\AppData\Local\Google\Chrome\User Data\Default\Login Data")
           SQLITE_CANTOPEN).
  - reflexivity.
  - reflexivity.
Defined.

(** C5, as the specification states it, fails: for the unknown browser
    [firefox] and no override path, [getLoginData] does call the store
    opener. *)
Lemma unsupported_browser_reaches_opener :
  ~ fails_fast (getLoginData windows_host example_engine
                  (VStr "firefox") (VBool true) VUndef).
Proof.
  intros H. apply (H VUndef OPEN_READONLY). vm_compute. by left.
Qed.

Lemma unsupported_browser_opens_undefined_witness :
  getBrowserFilePath windows_host (VStr "firefox") (VStr (file_name GetCookies)) =
    Return VUndef /\
  head (events (exports GetCookies windows_host example_engine
                  (VStr "firefox") (VBool true) VUndef)) =
    Some (EvNew VUndef OPEN_READONLY) /\
  result (exports GetCookies windows_host example_engine
            (VStr "firefox") (VBool true) VUndef) =
    match sq_open example_engine VUndef OPEN_READONLY with
    | CtorThrows e => Throw e
    | _ => Return VUndef
    end.
Proof.
  apply (unsupported_browser_opens_undefined windows_host example_engine
           (VStr "firefox") (VBool true) VUndef GetCookies).
  - unfold known_browsers. intros H.
    repeat (apply elem_of_cons in H as [H|H]; [discriminate H|]).
    by apply elem_of_nil in H.
  - reflexivity.
Defined.

Lemma login_fetch_fields_witness :
  logged (events (getLoginData windows_host example_engine
                    (VStr "chrome") (VBool true) (VStr "C:\backup\Login Data"))) =
    [if to_boolean (VBool true)
     then map project_login [example_login_row; second_login_row]
     else [example_login_row; second_login_row]] /\
  forall row : obj,
    dom (project_login row) = {[ "originUrl"; "username"; "password" ]} /\
    project_login row !! "originUrl" = Some (get_prop row "origin_url") /\
    project_login row !! "username" = Some (get_prop row "username_value") /\
    project_login row !! "password" = Some (get_prop row "password_value").
Proof.
  apply (login_fetch_fields windows_host example_engine
           (VStr "chrome") (VBool true) (VStr "C:\backup\Login Data")
           (VStr "C:\backup\Login Data")
           (table_database {[ "logins" := [example_login_row; second_login_row] ]})).
  - reflexivity.
  - reflexivity.
  - reflexivity.
Defined.

(** C10, as stated, fails: where [LOCALAPPDATA] is not set, [getLoginData]
    called for [chrome] without an override path does not return: the
    TypeError of [path.join] reaches the caller. *)
Lemma getLoginData_throws :
  result (getLoginData unset_host example_engine (VStr "chrome") (VBool false) VUndef)
    = Throw ERR_INVALID_ARG_TYPE /\
  result (getLoginData unset_host example_engine (VStr "chrome") (VBool false) VUndef)
    <> Return VUndef.
Proof. split; [reflexivity|discriminate]. Qed.

(** * Further properties of the code *)

(** ** What a run does on the store *)

Lemma opener_calls_console (lines : list console) (t : list event) :
  opener_calls (map EvConsole lines ++ t) = opener_calls t.
Proof. induction lines as [|line lines IH]; [done|]. simpl. apply IH. Qed.

Lemma queries_console (lines : list console) (t : list event) :
  queries (map EvConsole lines ++ t) = queries t.
Proof. induction lines as [|line lines IH]; [done|]. simpl. apply IH. Qed.



(** X1. Every exported function calls the store opener at most once, with
    the path it resolved and always with [OPEN_READONLY]; it does not call it
    at all when resolving the path throws. *)
Theorem opener_called_once_readonly (op : operation) (h : host) (E : engine)
    (browser limited filePath : value) :
  opener_calls (events (exports op h E browser limited filePath)) =
  match target h op browser filePath with
  | Return p => [(p, OPEN_READONLY)]
  | Throw _ => []
  end.
Proof.
  by_outline.
  destruct (target h op browser filePath) as [p|e]; [|done].
  destruct (sq_open E p OPEN_READONLY) as [e|e|d]; [done..|].
  simpl events.
  change (opener_calls (EvNew p OPEN_READONLY :: EvOpened :: EvQuery (statement op) :: ?t))
    with ((p, OPEN_READONLY) :: opener_calls t).
  rewrite opener_calls_console. by destruct (calls_close op).
Qed.

(** X2. A run executes exactly one statement, the fixed [SELECT * FROM]
    of the function, when the database opens, and no statement otherwise. *)
Theorem one_select_per_run (op : operation) (h : host) (E : engine)
    (browser limited filePath : value) :
  queries (events (exports op h E browser limited filePath)) =
  if opens_store op h E browser filePath then [statement op] else [].
Proof.
  by_outline. unfold opens_store.
  destruct (target h op browser filePath) as [p|e]; [|done].
  destruct (sq_open E p OPEN_READONLY) as [e|e|d]; [done..|].
  simpl events.
  change (queries (EvNew p OPEN_READONLY :: EvOpened :: EvQuery (statement op) :: ?t))
    with (statement op :: queries t).
  rewrite queries_console. by destruct (calls_close op).
Qed.

(** X3. With a truthy override path the resolver is bypassed: the run is
    the same whatever the browser identifier and the environment are. *)
Theorem override_bypasses_resolver (op : operation) (h h' : host) (E : engine)
    (browser browser' limited filePath : value) :
  to_boolean filePath = true ->
  exports op h E browser limited filePath = exports op h' E browser' limited filePath.
Proof.
  intros Hpath. rewrite !exports_outline. unfold outline, target. by rewrite Hpath.
Qed.

Lemma override_bypasses_resolver_witness :
  exports GetCookies windows_host example_engine
    (VStr "chrome") (VBool true) (VStr "C:\backup\Cookies") =
  exports GetCookies unset_host example_engine
    (VStr "firefox") (VBool true) (VStr "C:\backup\Cookies").
Proof.
  apply (override_bypasses_resolver GetCookies windows_host unset_host example_engine
           (VStr "chrome") (VStr "firefox") (VBool true) (VStr "C:\backup\Cookies")).
  reflexivity.
Defined.

(** X4. A falsy override path (the empty string, [0], [null], [false]) is
    treated as no override: the run is that of the call with [undefined]. *)
Theorem falsy_override_is_absent (op : operation) (h : host) (E : engine)
    (browser limited filePath : value) :
  to_boolean filePath = false ->
  exports op h E browser limited filePath = exports op h E browser limited VUndef.
Proof.
  intros Hpath. rewrite !exports_outline. unfold outline, target. by rewrite Hpath.
Qed.

Lemma falsy_override_is_absent_witness :
  exports GetUrlHistory windows_host example_engine
    (VStr "opera") (VBool true) (VStr EmptyString) =
  exports GetUrlHistory windows_host example_engine
    (VStr "opera") (VBool true) VUndef.
Proof.
  apply (falsy_override_is_absent GetUrlHistory windows_host example_engine
           (VStr "opera") (VBool true) (VStr EmptyString)).
  reflexivity.
Defined.



(** X6. The [limited] argument counts by its truthiness only: two values
    that are both truthy, or both falsy, give the same run. *)
Theorem limited_by_truthiness (op : operation) (h : host) (E : engine)
    (browser limited limited' filePath : value) :
  to_boolean limited = to_boolean limited' ->
  exports op h E browser limited filePath = exports op h E browser limited' filePath.
Proof.
  intros Hl. rewrite !exports_outline. unfold outline, query_lines, emitted.
  by rewrite Hl.
Qed.

Lemma limited_by_truthiness_witness :
  exports GetLoginDataEach windows_host example_engine
    (VStr "chrome") (VNum 1) (VStr "C:\backup\Login Data") =
  exports GetLoginDataEach windows_host example_engine
    (VStr "chrome") (VStr "yes") (VStr "C:\backup\Login Data").
Proof.
  apply (limited_by_truthiness GetLoginDataEach windows_host example_engine
           (VStr "chrome") (VNum 1) (VStr "yes") (VStr "C:\backup\Login Data")).
  reflexivity.
Defined.

(** ** The records of the other fetches *)

(** X7. When the History file opens and [urls] yields [rows],
    [getUrlHistory] logs one array: with a truthy [limited] flag a record per
    row, in the order of the rows, with exactly the fields [id], [url],
    [title], [visits] and [lastVisit], read from the columns [id], [url],
    [title], [visit_count] and [last_visit_time]; with a falsy flag the rows
    themselves. *)
Theorem url_history_fields (h : host) (E : engine)
    (browser limited historyFilePath p : value) (d : database) (rows : list obj) :
  target h GetUrlHistory browser historyFilePath = Return p ->
  sq_open E p OPEN_READONLY = Opened d ->
  d "SELECT * FROM urls" = QueryRows rows ->
  logged (events (getUrlHistory h E browser limited historyFilePath)) =
    [if to_boolean limited then map project_url rows else rows] /\
  forall row : obj,
    dom (project_url row) = {[ "id"; "url"; "title"; "visits"; "lastVisit" ]} /\
    project_url row !! "id" = Some (get_prop row "id") /\
    project_url row !! "url" = Some (get_prop row "url") /\
    project_url row !! "title" = Some (get_prop row "title") /\
    project_url row !! "visits" = Some (get_prop row "visit_count") /\
    project_url row !! "lastVisit" = Some (get_prop row "last_visit_time").
Proof.
  intros Hp Hopen Hrows. split.
  - pose proof (logged_exports h E browser limited historyFilePath GetUrlHistory) as Hl.
    simpl exports in Hl. rewrite Hl, Hp, Hopen. simpl statement. rewrite Hrows.
    simpl uses_each. cbv iota. unfold emitted. simpl projection.
    destruct (to_boolean limited); [done|]. by rewrite map_id.
  - intros row. split.
    + unfold project_url. rewrite !dom_insert_L, dom_singleton_L. set_solver.
    + repeat split; vm_compute; reflexivity.
Qed.

Lemma url_history_fields_witness :
  logged (events (getUrlHistory windows_host example_engine
                    (VStr "chrome") (VBool true) (VStr "C:\backup\History"))) =
    [if to_boolean (VBool true) then map project_url [example_url_row]
     else [example_url_row]] /\
  forall row : obj,
    dom (project_url row) = {[ "id"; "url"; "title"; "visits"; "lastVisit" ]} /\
    project_url row !! "id" = Some (get_prop row "id") /\
    project_url row !! "url" = Some (get_prop row "url") /\
    project_url row !! "title" = Some (get_prop row "title") /\
    project_url row !! "visits" = Some (get_prop row "visit_count") /\
    project_url row !! "lastVisit" = Some (get_prop row "last_visit_time").
Proof.
  apply (url_history_fields windows_host example_engine
           (VStr "chrome") (VBool true) (VStr "C:\backup\History")
           (VStr "C:\backup\History")
           (table_database {[ "urls" := [example_url_row];
                              "downloads" := [example_download_row] ]})).
  - reflexivity.
  - reflexivity.
  - reflexivity.
Defined.

(** X8. When the History file opens and [downloads] yields [rows],
    [getDownloadHistory] logs one array: with a truthy [limited] flag a
    record per row, in the order of the rows, with exactly the nine fields
    [id], [guid], [currentPath], [targetPath], [totalBytes], [referrer],
    [siteUrl], [tabUrl] and [mimeType], read from the columns of the
    corresponding names; with a falsy flag the rows themselves. *)
Theorem download_history_fields (h : host) (E : engine)
    (browser limited historyFilePath p : value) (d : database) (rows : list obj) :
  target h GetDownloadHistory browser historyFilePath = Return p ->
  sq_open E p OPEN_READONLY = Opened d ->
  d "SELECT * FROM downloads" = QueryRows rows ->
  logged (events (getDownloadHistory h E browser limited historyFilePath)) =
    [if to_boolean limited then map project_download rows else rows] /\
  forall row : obj,
    dom (project_download row) =
      {[ "id"; "guid"; "currentPath"; "targetPath"; "totalBytes"; "referrer";
         "siteUrl"; "tabUrl"; "mimeType" ]} /\
    project_download row !! "id" = Some (get_prop row "id") /\
    project_download row !! "guid" = Some (get_prop row "guid") /\
    project_download row !! "currentPath" = Some (get_prop row "current_path") /\
    project_download row !! "targetPath" = Some (get_prop row "target_path") /\
    project_download row !! "totalBytes" = Some (get_prop row "total_bytes") /\
    project_download row !! "referrer" = Some (get_prop row "referrer") /\
    project_download row !! "siteUrl" = Some (get_prop row "site_url") /\
    project_download row !! "tabUrl" = Some (get_prop row "tab_url") /\
    project_download row !! "mimeType" = Some (get_prop row "mime_type").
Proof.
  intros Hp Hopen Hrows. split.
  - pose proof (logged_exports h E browser limited historyFilePath GetDownloadHistory) as Hl.
    simpl exports in Hl. rewrite Hl, Hp, Hopen. simpl statement. rewrite Hrows.
    simpl uses_each. cbv iota. unfold emitted. simpl projection.
    destruct (to_boolean limited); [done|]. by rewrite map_id.
  - intros row. split.
    + unfold project_download. rewrite !dom_insert_L, dom_singleton_L. set_solver.
    + repeat split; vm_compute; reflexivity.
Qed.

Lemma download_history_fields_witness :
  logged (events (getDownloadHistory windows_host example_engine
                    (VStr "chrome") (VBool true) (VStr "C:\backup\History"))) =
    [if to_boolean (VBool true) then map project_download [example_download_row]
     else [example_download_row]] /\
  forall row : obj,
    dom (project_download row) =
      {[ "id"; "guid"; "currentPath"; "targetPath"; "totalBytes"; "referrer";
         "siteUrl"; "tabUrl"; "mimeType" ]} /\
    project_download row !! "id" = Some (get_prop row "id") /\
    project_download row !! "guid" = Some (get_prop row "guid") /\
    project_download row !! "currentPath" = Some (get_prop row "current_path") /\
    project_download row !! "targetPath" = Some (get_prop row "target_path") /\
    project_download row !! "totalBytes" = Some (get_prop row "total_bytes") /\
    project_download row !! "referrer" = Some (get_prop row "referrer") /\
    project_download row !! "siteUrl" = Some (get_prop row "site_url") /\
    project_download row !! "tabUrl" = Some (get_prop row "tab_url") /\
    project_download row !! "mimeType" = Some (get_prop row "mime_type").
Proof.
  apply (download_history_fields windows_host example_engine
           (VStr "chrome") (VBool true) (VStr "C:\backup\History")
           (VStr "C:\backup\History")
           (table_database {[ "urls" := [example_url_row];
                              "downloads" := [example_download_row] ]})).
  - reflexivity.
  - reflexivity.
  - reflexivity.
Defined.

(** X9. When the Cookies file opens and [cookies] yields [rows],
    [getCookies] logs one array: with a truthy [limited] flag a record per
    row, in the order of the rows, with exactly eleven fields, whatever
    columns the row has; the six fields that are not flags are the values of
    their columns as they are. With a falsy flag the array holds the rows
    themselves. *)
Theorem cookie_fetch_fields (h : host) (E : engine)
    (browser limited cookiesFilePath p : value) (d : database) (rows : list obj) :
  target h GetCookies browser cookiesFilePath = Return p ->
  sq_open E p OPEN_READONLY = Opened d ->
  d "SELECT * FROM cookies" = QueryRows rows ->
  logged (events (getCookies h E browser limited cookiesFilePath)) =
    [if to_boolean limited then map project_cookie rows else rows] /\
  forall row : obj,
    dom (project_cookie row) =
      {[ "hostKey"; "name"; "value"; "path"; "expiresUtc"; "secure"; "httpOnly";
         "lastAccessUtc"; "expired"; "persistent"; "priority" ]} /\
    project_cookie row !! "hostKey" = Some (get_prop row "host_key") /\
    project_cookie row !! "name" = Some (get_prop row "name") /\
    project_cookie row !! "value" = Some (get_prop row "encrypted_value") /\
    project_cookie row !! "path" = Some (get_prop row "path") /\
    project_cookie row !! "expiresUtc" = Some (get_prop row "expires_utc") /\
    project_cookie row !! "lastAccessUtc" = Some (get_prop row "last_access_utc").
Proof.
  intros Hp Hopen Hrows. split.
  - pose proof (logged_exports h E browser limited cookiesFilePath GetCookies) as Hl.
    simpl exports in Hl. rewrite Hl, Hp, Hopen. simpl statement. rewrite Hrows.
    simpl uses_each. cbv iota. unfold emitted. simpl projection.
    destruct (to_boolean limited); [done|]. by rewrite map_id.
  - intros row. split.
    + unfold project_cookie. rewrite !dom_insert_L, dom_singleton_L. set_solver.
    + repeat split; vm_compute; reflexivity.
Qed.

Lemma cookie_fetch_fields_witness :
  logged (events (getCookies windows_host example_engine
                    (VStr "chrome") (VBool true) (VStr "C:\backup\Cookies"))) =
    [if to_boolean (VBool true) then map project_cookie [example_cookie_row]
     else [example_cookie_row]] /\
  forall row : obj,
    dom (project_cookie row) =
      {[ "hostKey"; "name"; "value"; "path"; "expiresUtc"; "secure"; "httpOnly";
         "lastAccessUtc"; "expired"; "persistent"; "priority" ]} /\
    project_cookie row !! "hostKey" = Some (get_prop row "host_key") /\
    project_cookie row !! "name" = Some (get_prop row "name") /\
    project_cookie row !! "value" = Some (get_prop row "encrypted_value") /\
    project_cookie row !! "path" = Some (get_prop row "path") /\
    project_cookie row !! "expiresUtc" = Some (get_prop row "expires_utc") /\
    project_cookie row !! "lastAccessUtc" = Some (get_prop row "last_access_utc").
Proof.
  apply (cookie_fetch_fields windows_host example_engine
           (VStr "chrome") (VBool true) (VStr "C:\backup\Cookies")
           (VStr "C:\backup\Cookies")
           (table_database {[ "cookies" := [example_cookie_row] ]})).
  - reflexivity.
  - reflexivity.
  - reflexivity.
Defined.

(** ** What the console shows *)

Lemma length_growing (array xs : list obj) :
  length (growing array xs) = length xs.
Proof.
  revert array. induction xs as [|x xs IH]; intros array; [done|].
  simpl. by rewrite IH.
Qed.

Lemma growing_lookup (array xs : list obj) (k : nat) :
  (k < length xs)%nat -> growing array xs !! k = Some (array ++ take (S k) xs).
Proof.
  revert array k. induction xs as [|x xs IH]; intros array k Hk; simpl in Hk; [lia|].
  destruct k as [|k].
  - simpl. by rewrite take_0.
  - change (growing array (x :: xs) !! S k) with (growing (push array x) xs !! k).
    rewrite IH by lia. unfold push. by rewrite <- app_assoc.
Qed.

(** X10. A streaming function ([getLoginDataEach], [getCookiesEach])
    whose statement yields [n] rows writes [n] arrays with [console.log]: the
    array logged after row [k] holds the records of the first [k] rows, in
    the order of the rows. *)
Theorem streaming_logs_every_prefix (op : operation) (h : host) (E : engine)
    (browser limited filePath p : value) (d : database) (rows : list obj) :
  uses_each op = true ->
  target h op browser filePath = Return p ->
  sq_open E p OPEN_READONLY = Opened d ->
  d (statement op) = QueryRows rows ->
  length (logged (events (exports op h E browser limited filePath))) = length rows /\
  forall k : nat, (k < length rows)%nat ->
    logged (events (exports op h E browser limited filePath)) !! k =
    Some (map (emitted op limited) (take (S k) rows)).
Proof.
  intros Heach Hp Hopen Hrows.
  rewrite (logged_exports h E browser limited filePath op), Hp, Hopen, Hrows, Heach.
  split.
  - by rewrite length_growing, length_map.
  - intros k Hk. rewrite growing_lookup by (by rewrite length_map).
    simpl app. by rewrite firstn_map.
Qed.

Lemma streaming_logs_every_prefix_witness :
  length (logged (events (exports GetLoginDataEach windows_host example_engine
                            (VStr "chrome") (VBool true) (VStr "C:\backup\Login Data")))) =
    length [example_login_row; second_login_row] /\
  forall k : nat, (k < length [example_login_row; second_login_row])%nat ->
    logged (events (exports GetLoginDataEach windows_host example_engine
                      (VStr "chrome") (VBool true) (VStr "C:\backup\Login Data"))) !! k =
    Some (map (emitted GetLoginDataEach (VBool true))
            (take (S k) [example_login_row; second_login_row])).
Proof.
  apply (streaming_logs_every_prefix GetLoginDataEach windows_host example_engine
           (VStr "chrome") (VBool true) (VStr "C:\backup\Login Data")
           (VStr "C:\backup\Login Data")
           (table_database {[ "logins" := [example_login_row; second_login_row] ]})).
  - reflexivity.
  - reflexivity.
  - reflexivity.
  - reflexivity.
Defined.

(** X11. On a table without rows a bulk function logs one empty array,
    and a streaming function logs nothing at all. *)
Theorem empty_table_logs (op : operation) (h : host) (E : engine)
    (browser limited filePath p : value) (d : database) :
  target h op browser filePath = Return p ->
  sq_open E p OPEN_READONLY = Opened d ->
  d (statement op) = QueryRows [] ->
  logged (events (exports op h E browser limited filePath)) =
  if uses_each op then [] else [[]].
Proof.
  intros Hp Hopen Hrows.
  by rewrite (logged_exports h E browser limited filePath op), Hp, Hopen, Hrows.
Qed.

Lemma empty_table_logs_witness :
  logged (events (exports GetCookiesEach windows_host fresh_engine
                    (VStr "chrome") (VBool true) (VStr "C:\fresh\Cookies"))) =
  if uses_each GetCookiesEach then [] else [[]].
Proof.
  apply (empty_table_logs GetCookiesEach windows_host fresh_engine
           (VStr "chrome") (VBool true) (VStr "C:\fresh\Cookies")
           (VStr "C:\fresh\Cookies")
           (table_database {[ "cookies" := [] ]})).
  - reflexivity.
  - reflexivity.
  - reflexivity.
Defined.



(** The run of [getLoginDataEach] on the damaged file: the record of the
    row that was read is logged, then the error is written. *)
Lemma getLoginDataEach_damaged_example :
  events (getLoginDataEach windows_host damaged_engine
            (VStr "chrome") (VBool true) (VStr "C:\damaged\Login Data")) =
  [ EvNew (VStr "C:\damaged\Login Data") OPEN_READONLY; EvOpened;
    EvQuery "SELECT * FROM logins";
    EvConsole (Log [project_login example_login_row]);
    EvConsole (Error SQLITE_CORRUPT); EvClosed ] /\
  events (getLoginData windows_host damaged_engine
            (VStr "chrome") (VBool true) (VStr "C:\damaged\Login Data")) =
  [ EvNew (VStr "C:\damaged\Login Data") OPEN_READONLY; EvOpened;
    EvQuery "SELECT * FROM logins";
    EvConsole (Error SQLITE_CORRUPT); EvClosed ].
Proof. split; reflexivity. Qed.

(** ** More on the path resolver *)

Lemma path_join_not_undefined (h : host) (args : list value) :
  path_join h args <> Return VUndef.
Proof. unfold path_join. by destruct (mapM as_string args). Qed.

(** X12. [getBrowserFilePath] returns [undefined] exactly for the
    identifiers outside the known set: for [chrome], [opera] and [yandex] it
    returns a string or throws, whatever the environment and the file name. *)
Theorem resolver_absent_iff_unknown (h : host) (browser fileName : value) :
  getBrowserFilePath h browser fileName = Return VUndef <-> browser ∉ known_browsers.
Proof.
  split; [|apply unknown_browser].
  unfold getBrowserFilePath, known_browsers.
  destruct (strict_eq_str browser "chrome") eqn:H1;
    [by intros ?%path_join_not_undefined|].
  destruct (strict_eq_str browser "opera") eqn:H2;
    [by intros ?%path_join_not_undefined|].
  destruct (strict_eq_str browser "yandex") eqn:H3;
    [by intros ?%path_join_not_undefined|].
  intros _ Hin.
  repeat (apply elem_of_cons in Hin as [->|Hin]; [discriminate|]).
  by apply elem_of_nil in Hin.
Qed.

(** X13. Where [LOCALAPPDATA] is not a string (the variable is not set),
    every exported function called for a known browser without an override
    path throws the TypeError of [path.join] before anything else happens:
    the store opener is not called and nothing is written. *)
Theorem unset_appdata_throws_before_open (op : operation) (h : host) (E : engine)
    (browser limited filePath : value) :
  as_string (LOCALAPPDATA h) = None ->
  browser ∈ known_browsers ->
  to_boolean filePath = false ->
  exports op h E browser limited filePath = Run (Throw ERR_INVALID_ARG_TYPE) [].
Proof.
  intros Henv Hb Hpath. by_outline. unfold target. rewrite Hpath.
  assert (Hthrow : getBrowserFilePath h browser (VStr (file_name op)) =
                   Throw ERR_INVALID_ARG_TYPE).
  { unfold known_browsers in Hb.
    repeat (apply elem_of_cons in Hb as [->|Hb];
            [unfold getBrowserFilePath, path_join; simpl; by rewrite Henv|]).
    by apply elem_of_nil in Hb. }
  by rewrite Hthrow.
Qed.

Lemma unset_appdata_throws_before_open_witness :
  exports GetDownloadHistory unset_host example_engine
    (VStr "opera") (VBool true) VUndef = Run (Throw ERR_INVALID_ARG_TYPE) [].
Proof.
  apply (unset_appdata_throws_before_open GetDownloadHistory unset_host example_engine
           (VStr "opera") (VBool true) VUndef).
  - reflexivity.
  - unfold known_browsers. apply list_elem_of_In. simpl. right. by left.
  - reflexivity.
Defined.

(** ** What the limited view keeps *)

(** X15. The limited records of logins, urls and downloads keep the
    values of their columns and nothing else: two rows have the same limited
    record exactly when they agree on the columns the record is read from. *)
Theorem limited_view_keeps_exactly_columns (row row' : obj) :
  (project_login row = project_login row' <->
     get_prop row "origin_url" = get_prop row' "origin_url" /\
     get_prop row "username_value" = get_prop row' "username_value" /\
     get_prop row "password_value" = get_prop row' "password_value") /\
  (project_url row = project_url row' <->
     get_prop row "id" = get_prop row' "id" /\
     get_prop row "url" = get_prop row' "url" /\
     get_prop row "title" = get_prop row' "title" /\
     get_prop row "visit_count" = get_prop row' "visit_count" /\
     get_prop row "last_visit_time" = get_prop row' "last_visit_time") /\
  (project_download row = project_download row' <->
     get_prop row "id" = get_prop row' "id" /\
     get_prop row "guid" = get_prop row' "guid" /\
     get_prop row "current_path" = get_prop row' "current_path" /\
     get_prop row "target_path" = get_prop row' "target_path" /\
     get_prop row "total_bytes" = get_prop row' "total_bytes" /\
     get_prop row "referrer" = get_prop row' "referrer" /\
     get_prop row "site_url" = get_prop row' "site_url" /\
     get_prop row "tab_url" = get_prop row' "tab_url" /\
     get_prop row "mime_type" = get_prop row' "mime_type").
Proof.
  assert (Hread : forall (f : obj -> obj) (field : string) (v v' : value),
    f row !! field = Some v -> f row' !! field = Some v' -> f row = f row' -> v = v').
  { intros f field v v' Hv Hv' Heq. rewrite Heq in Hv. congruence. }
  repeat split.
  - by apply (Hread project_login "originUrl").
  - by apply (Hread project_login "username").
  - by apply (Hread project_login "password").
  - intros (H1 & H2 & H3). unfold project_login. by rewrite H1, H2, H3.
  - by apply (Hread project_url "id").
  - by apply (Hread project_url "url").
  - by apply (Hread project_url "title").
  - by apply (Hread project_url "visits").
  - by apply (Hread project_url "lastVisit").
  - intros (H1 & H2 & H3 & H4 & H5). unfold project_url.
    by rewrite H1, H2, H3, H4, H5.
  - by apply (Hread project_download "id").
  - by apply (Hread project_download "guid").
  - by apply (Hread project_download "currentPath").
  - by apply (Hread project_download "targetPath").
  - by apply (Hread project_download "totalBytes").
  - by apply (Hread project_download "referrer").
  - by apply (Hread project_download "siteUrl").
  - by apply (Hread project_download "tabUrl").
  - by apply (Hread project_download "mimeType").
  - intros (H1 & H2 & H3 & H4 & H5 & H6 & H7 & H8 & H9). unfold project_download.
    by rewrite H1, H2, H3, H4, H5, H6, H7, H8, H9.
Qed.

(** ** Witnesses of the earlier lemmas *)

Lemma records_up_to_row_order_witness :
  last_logged (events (exports GetLoginData windows_host example_engine
                         (VStr "chrome") (VBool true) (VStr "C:\backup\Login Data"))) ≡ₚ
  last_logged (events (exports GetLoginDataEach windows_host reordered_engine
                         (VStr "chrome") (VBool true) (VStr "C:\backup\Login Data"))).
Proof.
  apply (records_up_to_row_order GetLoginData GetLoginDataEach windows_host
           example_engine reordered_engine
           (VStr "chrome") (VBool true) (VStr "C:\backup\Login Data")
           (VStr "C:\backup\Login Data")
           (table_database {[ "logins" := [example_login_row; second_login_row] ]})
           (table_database {[ "logins" := [second_login_row; example_login_row] ]})
           [example_login_row; second_login_row]
           [second_login_row; example_login_row]).
  - reflexivity.
  - reflexivity.
  - reflexivity.
  - reflexivity.
  - reflexivity.
  - reflexivity.
  - reflexivity.
  - reflexivity.
  - apply perm_swap.
Defined.

Lemma constructor_failure_thrown_witness :
  exports GetUrlHistory windows_host example_engine
    (VStr "firefox") (VBool false) VUndef =
  Run (Throw String_expected) [EvNew VUndef OPEN_READONLY].
Proof.
  apply (constructor_failure_thrown windows_host example_engine
           (VStr "firefox") (VBool false) VUndef GetUrlHistory VUndef String_expected).
  - reflexivity.
  - reflexivity.
Defined.
